(** * Verification of the [assert] test helper package (oxisto/assert)

    The package exists in two historical variants:
    - [Legacy]  : [src/assert.go], operator equality [==] with a
                  [proto.Equal] special case for protobuf messages;
    - [Evolved] : [src/unnamed/part_000], structural equality through
                  [cmp.Equal] with options.

    Both variants share [EqualsFunc], [Is], [ErrorIs] and the shape of
    [NoError], [NotNil] and [Nil].  The development embeds Go interface
    values, the [testing.TB] sink, the formatting verbs used by the package
    and the library functions the package calls ([errors.Is], [cmp.Equal],
    [proto.Equal], Go's [==]). *)

From Stdlib Require Import ZArith NArith List String Ascii Bool Lia.
From Stdlib Require Import DecimalString HexadecimalString.
Import ListNotations.
Open Scope string_scope.

#[local] Set Warnings "-register-all".

(** ** Go values *)

(** Heap addresses: two pointers are identical iff their addresses are. *)
Definition addr := N.
Bind Scope N_scope with addr.

(** A protobuf message as seen through [proto.Message]: its descriptor, its
    populated fields (field number and scalar content, in field order) and
    internal bookkeeping ([sizeCache], unknown to semantic equality). *)
Record message := MkMessage {
  mfields : list (Z * Z);
  msizeCache : Z
}.

(** Dynamic (non interface) values.  Type names are kept the way [%T]
    prints them.  A non-nil pointer carries its address and the value found
    there when the assertion runs (assertions never write through it). *)
Inductive dynval :=
| DBool (b : bool)
| DInt (n : Z)
| DString (s : string)
| DPtr (elem : string) (target : option (addr * option dynval))
| DStruct (ty : string) (fields : list (string * option dynval))
| DSlice (ty : string) (items : option (list (option dynval)))
| DMessage (ty : string) (target : option (addr * message)).

(** An interface value ([any], [error], a type parameter instantiated with
    an interface): [None] is the nil interface. *)
Definition value := option dynval.

Definition nil : value := None.

(** [reflect.TypeOf(v).String()], the text printed by [%T]. *)
Definition type_name (d : dynval) : string :=
  match d with
  | DBool _ => "bool"
  | DInt _ => "int"
  | DString _ => "string"
  | DPtr elem _ => "*" ++ elem
  | DStruct ty _ => ty
  | DSlice ty _ => ty
  | DMessage ty _ => "*" ++ ty
  end.

Definition same_type (x y : dynval) : bool :=
  String.eqb (type_name x) (type_name y).

(** Does the dynamic type implement [proto.Message]? *)
Definition is_proto_message (v : value) : bool :=
  match v with
  | Some (DMessage _ _) => true
  | _ => false
  end.

(** ** Formatting ([fmt] verbs [%T] and [%v])

    Values print by their structure.  [Error()] is honoured for operands
    passed at type [error] (see [GoType_error]); [String()] and [Error()]
    methods of values boxed in [any] are not modelled. *)

Definition itoa (n : Z) : string :=
  DecimalString.NilZero.string_of_int (Z.to_int n).

Definition hex_addr (a : addr) : string :=
  "0x" ++ HexadecimalString.NilZero.string_of_uint (N.to_hex_uint a).

Fixpoint join (sep : string) (l : list string) : string :=
  match l with
  | [] => ""
  | [s] => s
  | s :: rest => s ++ sep ++ join sep rest
  end.

Definition fmt_message (m : message) : string :=
  join " " (map (fun kv => itoa (fst kv) ++ ":" ++ itoa (snd kv)) (mfields m)).

(** [%v] below the top level: pointers print as addresses. *)
Fixpoint fmt_v_inner (d : dynval) : string :=
  let opt := fun o : option dynval =>
    match o with None => "<nil>" | Some x => fmt_v_inner x end in
  match d with
  | DBool b => if b then "true" else "false"
  | DInt n => itoa n
  | DString s => s
  | DPtr _ None => "<nil>"
  | DPtr _ (Some (a, _)) => hex_addr a
  | DStruct _ fields =>
      "{" ++ join " " ((fix go (l : list (string * option dynval)) :=
                          match l with
                          | [] => []
                          | (_, o) :: r => opt o :: go r
                          end) fields) ++ "}"
  | DSlice _ None => "[]"
  | DSlice _ (Some items) =>
      "[" ++ join " " ((fix go (l : list (option dynval)) :=
                          match l with
                          | [] => []
                          | o :: r => opt o :: go r
                          end) items) ++ "]"
  | DMessage _ None => "<nil>"
  | DMessage _ (Some (_, m)) => fmt_message m
  end.

(** [%v] at the top level: a pointer to a struct or slice prints as [&]
    followed by the pointee. *)
Definition fmt_v_dyn (d : dynval) : string :=
  match d with
  | DPtr _ (Some (_, Some (DStruct ty f))) => "&" ++ fmt_v_inner (DStruct ty f)
  | DPtr _ (Some (_, Some (DSlice ty i))) => "&" ++ fmt_v_inner (DSlice ty i)
  | _ => fmt_v_inner d
  end.

Definition fmt_v_value (v : value) : string :=
  match v with None => "<nil>" | Some d => fmt_v_dyn d end.

Definition fmt_T_value (v : value) : string :=
  match v with None => "<nil>" | Some d => type_name d end.

(** Substring test, used to state what a message contains. *)
Fixpoint prefixb (p s : string) : bool :=
  match p, s with
  | EmptyString, _ => true
  | String a p', String b s' => Ascii.eqb a b && prefixb p' s'
  | String _ _, EmptyString => false
  end.

Fixpoint contains (s sub : string) : bool :=
  prefixb sub s ||
  match s with
  | EmptyString => false
  | String _ s' => contains s' sub
  end.

(** ** Library functions called by the package

    A library call either yields a boolean or panics ([None]). *)

Definition both (a b : option bool) : option bool :=
  match a, b with
  | Some x, Some y => Some (x && y)
  | _, _ => None
  end.

(** *** Go's [==] on interface values *)

(** Is the dynamic type comparable?  Slices are not, nor are structs with a
    field that is not.  (A field slot is taken to have the type of the value
    it holds.) *)
Fixpoint comparable (d : dynval) : bool :=
  match d with
  | DSlice _ _ => false
  | DStruct _ fields =>
      (fix go (l : list (string * option dynval)) : bool :=
         match l with
         | [] => true
         | (_, None) :: r => go r
         | (_, Some x) :: r => comparable x && go r
         end) fields
  | _ => true
  end.

Definition same_target {A} (t1 t2 : option (addr * A)) : bool :=
  match t1, t2 with
  | None, None => true
  | Some (a, _), Some (b, _) => N.eqb a b
  | _, _ => false
  end.

(** [==] on two operands of one comparable dynamic type: scalars by content,
    pointers by address, structs field by field. *)
Fixpoint eq_dyn (x y : dynval) {struct x} : bool :=
  match x, y with
  | DBool a, DBool b => Bool.eqb a b
  | DInt a, DInt b => Z.eqb a b
  | DString a, DString b => String.eqb a b
  | DPtr _ t1, DPtr _ t2 => same_target t1 t2
  | DMessage _ t1, DMessage _ t2 => same_target t1 t2
  | DStruct _ f1, DStruct _ f2 =>
      (fix go (l1 l2 : list (string * option dynval)) {struct l1} : bool :=
         match l1, l2 with
         | [], [] => true
         | (_, o1) :: r1, (_, o2) :: r2 =>
             match o1, o2 with
             | None, None => true
             | Some a, Some b => same_type a b && eq_dyn a b
             | _, _ => false
             end && go r1 r2
         | _, _ => false
         end) f1 f2
  | _, _ => false
  end.

(** [x == y] on interface values: differing dynamic types are unequal,
    identical uncomparable dynamic types panic. *)
Definition go_eq (x y : value) : option bool :=
  match x, y with
  | None, None => Some true
  | None, Some _ | Some _, None => Some false
  | Some a, Some b =>
      if same_type a b
      then if comparable a then Some (eq_dyn a b) else None
      else Some false
  end.

(** *** [proto.Message] and [proto.Equal] *)

(** A non-nil [proto.Message] interface value: the message type and the
    (possibly nil) pointer. *)
Definition Message : Type := string * option (addr * message).

(** The unchecked type assertion [any(v).(proto.Message)]: panics unless the
    dynamic type implements the interface (so also on the nil interface). *)
Definition as_Message (v : value) : option Message :=
  match v with
  | Some (DMessage ty t) => Some (ty, t)
  | _ => None
  end.

Fixpoint fields_eqb (f1 f2 : list (Z * Z)) : bool :=
  match f1, f2 with
  | [], [] => true
  | (k1, v1) :: r1, (k2, v2) :: r2 =>
      Z.eqb k1 k2 && Z.eqb v1 v2 && fields_eqb r1 r2
  | _, _ => false
  end.

(** [proto.Equal]: identical pointers are equal; otherwise validity, the
    descriptor and the populated fields decide.  Bookkeeping is not
    looked at. *)
Definition proto_Equal (x y : Message) : bool :=
  let '(tx, px) := x in
  let '(ty, py) := y in
  if String.eqb tx ty && same_target px py then true
  else match px, py with
       | Some (_, mx), Some (_, my) =>
           String.eqb tx ty && fields_eqb (mfields mx) (mfields my)
       | None, None => String.eqb tx ty
       | _, _ => false
       end.

(** *** [cmp.Equal] *)

(** The options of [go-cmp] that are modelled, each keyed by the type name
    it filters on. *)
Inductive Option :=
| Comparer (ty : string) (f : dynval -> dynval -> bool)
| Ignore (ty : string)
| AllowUnexported (ty : string).

Definition ignores (ty : string) (o : Option) : bool :=
  match o with Ignore t => String.eqb t ty | _ => false end.

Definition allows (ty : string) (o : Option) : bool :=
  match o with AllowUnexported t => String.eqb t ty | _ => false end.

Fixpoint comparers (ty : string) (opts : list Option)
  : list (dynval -> dynval -> bool) :=
  match opts with
  | [] => []
  | Comparer t f :: r =>
      if String.eqb t ty then f :: comparers ty r else comparers ty r
  | _ :: r => comparers ty r
  end.

(** Exported identifiers start with an upper-case letter. *)
Definition isExported (name : string) : bool :=
  match name with
  | EmptyString => false
  | String c _ => let n := nat_of_ascii c in Nat.leb 65 n && Nat.leb n 90
  end.

(** What the options decide at a node of type [ty], if anything: an
    applicable [Ignore] wins, one applicable comparer is called, two or more
    are ambiguous and panic. *)
Inductive verdict := Decided (r : option bool) | Undecided.

Definition tryOptions (opts : list Option) (x y : dynval) : verdict :=
  let ty := type_name x in
  if existsb (ignores ty) opts then Decided (Some true)
  else match comparers ty opts with
       | [] => Undecided
       | [f] => Decided (Some (f x y))
       | _ => Decided None
       end.

(** [compareAny] on two operands of one dynamic type.  Differences are
    accumulated, never short-circuited; a panic anywhere aborts the
    comparison.  For slices the pairs the difference engine aligns are
    compared (element by element at equal length). *)
Fixpoint compareAny (opts : list Option) (x y : dynval) {struct x}
  : option bool :=
  let slot := fun (o1 : option dynval) (o2 : option dynval) =>
    match o1, o2 with
    | None, None => Some true
    | Some a, Some b => if same_type a b then compareAny opts a b
                        else Some false
    | _, _ => Some false
    end in
  match tryOptions opts x y with
  | Decided r => r
  | Undecided =>
    match x, y with
    | DBool a, DBool b => Some (Bool.eqb a b)
    | DInt a, DInt b => Some (Z.eqb a b)
    | DString a, DString b => Some (String.eqb a b)
    | DPtr _ None, DPtr _ None => Some true
    | DPtr _ (Some (_, px)), DPtr _ (Some (_, py)) => slot px py
    | DPtr _ _, DPtr _ _ => Some false
    | DStruct ty f1, DStruct _ f2 =>
        (fix go (l1 l2 : list (string * option dynval)) {struct l1}
           : option bool :=
           match l1, l2 with
           | [], [] => Some true
           | (name, o1) :: r1, (_, o2) :: r2 =>
               let here :=
                 if isExported name || existsb (allows ty) opts
                 then slot o1 o2
                 else match o1 with
                      | Some a => if existsb (ignores (type_name a)) opts
                                  then Some true else None
                      | None => None
                      end in
               both here (go r1 r2)
           | _, _ => Some false
           end) f1 f2
    | DSlice _ None, DSlice _ None => Some true
    | DSlice _ (Some i1), DSlice _ (Some i2) =>
        (fix go (l1 l2 : list (option dynval)) {struct l1} : option bool :=
           match l1, l2 with
           | [], [] => Some true
           | o1 :: r1, o2 :: r2 => both (slot o1 o2) (go r1 r2)
           | _, _ => Some false
           end) i1 i2
    | DSlice _ _, DSlice _ _ => Some false
    | DMessage _ None, DMessage _ None => Some true
    | DMessage ty (Some (_, mx)), DMessage _ (Some (_, my)) =>
        if existsb (allows ty) opts
        then Some (fields_eqb (mfields mx) (mfields my)
                   && Z.eqb (msizeCache mx) (msizeCache my))
        else None
    | DMessage _ _, DMessage _ _ => Some false
    | _, _ => Some false
    end
  end.

(** [cmp.Equal(x, y, opts...)]: an invalid (nil interface) operand is
    settled by the validator, operands of different types are unequal. *)
Definition cmp_Equal (x y : value) (opts : list Option) : option bool :=
  match x, y with
  | None, None => Some true
  | None, Some _ | Some _, None => Some false
  | Some a, Some b =>
      if same_type a b then compareAny opts a b else Some false
  end.

(** *** Errors and [errors.Is] *)

(** A non-nil error: its dynamic value, the text of [Error()] and, for a
    wrapper, the error returned by [Unwrap()].  ([Is(error) bool] methods
    and [Unwrap() []error] are not modelled.) *)
Inductive errval :=
| ELeaf (dyn : dynval) (msg : string)
| EWrap (dyn : dynval) (msg : string) (inner : errval).

Definition err_dyn (e : errval) : dynval :=
  match e with ELeaf d _ | EWrap d _ _ => d end.

Definition err_msg (e : errval) : string :=
  match e with ELeaf _ m | EWrap _ m _ => m end.

(** The [error] interface: [None] is the nil error. *)
Definition error := option errval.

(** [err == target] for a target of comparable dynamic type. *)
Definition err_eqb (e target : errval) : bool :=
  same_type (err_dyn e) (err_dyn target) && eq_dyn (err_dyn e) (err_dyn target).

(** The loop of [errors.is]. *)
Fixpoint is_ (err target : errval) (targetComparable : bool) : bool :=
  if targetComparable && err_eqb err target then true
  else match err with
       | EWrap _ _ inner => is_ inner target targetComparable
       | ELeaf _ _ => false
       end.

Definition errors_Is (err target : error) : bool :=
  match err, target with
  | None, None => true
  | None, Some _ | Some _, None => false
  | Some e, Some t => is_ e t (comparable (err_dyn t))
  end.

(** ** The reporting sink ([testing.TB]) *)

(** The reporting calls a test handle receives.  [t.Helper()] records
    nothing and is left out. *)
Inductive event :=
| Errorf (msg : string)
| Fatalf (msg : string).

(** The handle's state: the calls received so far, oldest first. *)
Definition TB := list event.

(** [t.Errorf(...)] and [t.Fatalf(...)] as seen by the handle. *)
Definition t_Errorf (t : TB) (msg : string) : TB := (t ++ [Errorf msg])%list.
Definition t_Fatalf (t : TB) (msg : string) : TB := (t ++ [Fatalf msg])%list.

(** How a call ends: it returns, it stops the test ([Fatalf] runs
    [FailNow]), or it panics. *)
Inductive outcome (A : Type) :=
| Returns (a : A)
| Halts
| Panics.
Arguments Returns {A} a.
Arguments Halts {A}.
Arguments Panics {A}.

(** ** Type parameters *)

(** What the package needs of a type argument [T]: the conversion [any(x)]
    and the text of [%v].  [%T] prints the dynamic type of [any(x)]. *)
Class GoType (T : Type) := {
  to_any : T -> value;
  fmt_v : T -> string
}.

Definition fmt_T {T} `{GoType T} (x : T) : string := fmt_T_value (to_any x).

#[export] Instance GoType_value : GoType value := {
  to_any := fun v => v;
  fmt_v := fmt_v_value
}.

#[export] Instance GoType_error : GoType error := {
  to_any := fun e => match e with None => None | Some x => Some (err_dyn x) end;
  fmt_v := fun e => match e with None => "<nil>" | Some x => err_msg x end
}.

(** The target of a type assertion [value.(T)]. *)
Inductive target :=
| Concrete (ty : string)
| Interface (name : string) (implements : dynval -> bool).

Definition target_name (T : target) : string :=
  match T with Concrete ty => ty | Interface name _ => name end.

(** [value.(T)] in its comma-ok form: [Some cast] when it succeeds. *)
Definition type_assert (T : target) (v : value) : option value :=
  match v with
  | None => None
  | Some d =>
      match T with
      | Concrete ty => if String.eqb (type_name d) ty then Some v else None
      | Interface _ implements => if implements d then Some v else None
      end
  end.

(** [new(T)] printed with [%T]: the pointer type. *)
Definition fmt_T_new (T : target) : string := "*" ++ target_name T.

(** [&value] for a variable of type [any] stored at address [a]. *)
Definition address_of (a : addr) (v : value) : value :=
  Some (DPtr "interface {}" (Some (a, v))).

(** The untyped [nil] converted to [*any]. *)
Definition nil_ptr_any : value := Some (DPtr "interface {}" None).

(** ** The package, older variant ([src/assert.go]) *)

Module Legacy.

Definition EqualsFunc {T} `{GoType T} (t : TB) (expected actual : T)
    (equals : T -> T -> option bool) : TB * outcome bool :=
  match equals expected actual with
  | None => (t, Panics)
  | Some ok =>
      if negb ok
      then (t_Errorf t (fmt_T actual ++ " = " ++ fmt_v actual
                          ++ ", want " ++ fmt_v expected), Returns ok)
      else (t, Returns ok)
  end.

Definition Equals {T} `{GoType T} (t : TB) (expected actual : T)
  : TB * outcome bool :=
  EqualsFunc t expected actual (fun expected actual =>
    match as_Message (to_any expected) with
    | Some msg =>
        match as_Message (to_any actual) with
        | Some act => Some (proto_Equal msg act)
        | None => None
        end
    | None => go_eq (to_any expected) (to_any actual)
    end).

Definition NotEquals {T} `{GoType T} (t : TB) (expected actual : T)
  : TB * outcome bool :=
  let ok :=
    match as_Message (to_any expected) with
    | Some msg =>
        match as_Message (to_any actual) with
        | Some act => Some (negb (proto_Equal msg act))
        | None => None
        end
    | None => option_map negb (go_eq (to_any expected) (to_any actual))
    end in
  match ok with
  | None => (t, Panics)
  | Some ok =>
      if negb ok
      then (t_Errorf t (fmt_T actual ++ " = " ++ fmt_v actual
                          ++ ", want " ++ fmt_v expected), Returns ok)
      else (t, Returns ok)
  end.

Definition Is (T : target) (t : TB) (v : value) : TB * outcome value :=
  match type_assert T v with
  | None =>
      (t_Fatalf t (fmt_v v ++ " is not of type " ++ fmt_T_new T), Halts)
  | Some cast => (t, Returns cast)
  end.

Definition NoError (t : TB) (err : error) : TB * outcome bool :=
  Equals t (None : error) err.

Definition NotNil (a : addr) (t : TB) (v : value) : TB * outcome bool :=
  match NotEquals t nil_ptr_any (address_of a v) with
  | (t', Returns ok) =>
      if negb ok
      then (t_Fatalf t' ("variable of type " ++ fmt_T v
                           ++ " should not be nil"), Halts)
      else (t', Returns ok)
  | (t', Halts) => (t', Halts)
  | (t', Panics) => (t', Panics)
  end.

Definition Nil (t : TB) (v : value) : TB * outcome bool :=
  Equals t nil v.

Definition ErrorIs (t : TB) (expected actual : error) : TB * outcome bool :=
  EqualsFunc t expected actual (fun expected actual =>
    Some (errors_Is actual expected)).

End Legacy.

(** ** The package, evolved variant ([src/unnamed/part_000]) *)

Module Evolved.

Definition EqualsFunc {T} `{GoType T} (t : TB) (expected actual : T)
    (equals : T -> T -> option bool) : TB * outcome bool :=
  match equals expected actual with
  | None => (t, Panics)
  | Some ok =>
      if negb ok
      then (t_Errorf t (fmt_T actual ++ " = " ++ fmt_v actual
                          ++ ", want " ++ fmt_v expected), Returns ok)
      else (t, Returns ok)
  end.

Definition Equals {T} `{GoType T} (t : TB) (expected actual : T)
    (opts : list Option) : TB * outcome bool :=
  EqualsFunc t expected actual (fun expected actual =>
    cmp_Equal (to_any expected) (to_any actual) opts).

Definition NotEquals {T} `{GoType T} (t : TB) (expected actual : T)
    (opts : list Option) : TB * outcome bool :=
  match option_map negb (cmp_Equal (to_any expected) (to_any actual) opts) with
  | None => (t, Panics)
  | Some ok =>
      if negb ok
      then (t_Errorf t (fmt_T actual ++ " != " ++ fmt_v actual
                          ++ ", want " ++ fmt_v expected), Returns ok)
      else (t, Returns ok)
  end.

Definition Is (T : target) (t : TB) (v : value) : TB * outcome value :=
  match type_assert T v with
  | None =>
      (t_Fatalf t (fmt_v v ++ " is not of type " ++ fmt_T_new T), Halts)
  | Some cast => (t, Returns cast)
  end.

Definition NoError (t : TB) (err : error) : TB * outcome bool :=
  Equals t (None : error) err [].

Definition NotNil (a : addr) (t : TB) (v : value) : TB * outcome bool :=
  match NotEquals t nil_ptr_any (address_of a v) [] with
  | (t', Returns ok) =>
      if negb ok
      then (t_Fatalf t' ("variable of type " ++ fmt_T v
                           ++ " should not be nil"), Halts)
      else (t', Returns ok)
  | (t', Halts) => (t', Halts)
  | (t', Panics) => (t', Panics)
  end.

Definition Nil (t : TB) (v : value) : TB * outcome bool :=
  Equals t nil v [].

Definition ErrorIs (t : TB) (expected actual : error) : TB * outcome bool :=
  EqualsFunc t expected actual (fun expected actual =>
    Some (errors_Is actual expected)).

End Evolved.

(** ** Test data of [TestEquals] ([src/unnamed/part_001]) *)

Definition SomeStruct (A : Z) (B : string) : option dynval :=
  Some (DStruct "assert.SomeStruct" [("A", Some (DInt A)); ("B", Some (DString B))]).

(** [&SomeStruct{A: a, B: b}] allocated at address [p]. *)
Definition ref_SomeStruct (p : addr) (A : Z) (B : string) : value :=
  Some (DPtr "assert.SomeStruct" (Some (p, SomeStruct A B))).

(** The shape of a soft-assertion message, ["%T = %v, want %v"]. *)
Definition got_want {T} `{GoType T} (actual expected : T) : string :=
  fmt_T actual ++ " = " ++ fmt_v actual ++ ", want " ++ fmt_v expected.

Definition outcome_map {A B} (f : A -> B) (o : outcome A) : outcome B :=
  match o with
  | Returns a => Returns (f a)
  | Halts => Halts
  | Panics => Panics
  end.

(** ** Vocabulary of the properties *)

(** What a soft assertion may do to the handle [t]: pass silently, panic
    before reporting, or fail with the one message [msg]. *)
Definition soft_report (t : TB) (msg : string) (r : TB * outcome bool) : Prop :=
  r = (t, Returns true) \/ r = (t, Panics)
  \/ r = (t_Errorf t msg, Returns false).

(** The message of the evolved [NotEquals], ["%T != %v, want %v"]. *)
Definition got_unwanted {T} `{GoType T} (actual expected : T) : string :=
  fmt_T actual ++ " != " ++ fmt_v actual ++ ", want " ++ fmt_v expected.






(** [errors.New(text)], allocated at address [p]. *)
Definition errors_New (p : addr) (text : string) : errval :=
  ELeaf (DPtr "errors.errorString"
           (Some (p, Some (DStruct "errors.errorString"
                             [("s", Some (DString text))]))))
        text.

(** [fmt.Errorf(prefix + ": %w", inner)], allocated at address [p]. *)
Definition fmt_Errorf (p : addr) (prefix : string) (inner : errval) : errval :=
  let text := prefix ++ ": " ++ err_msg inner in
  EWrap (DPtr "fmt.wrapError"
           (Some (p, Some (DStruct "fmt.wrapError"
                             [("msg", Some (DString text));
                              ("err", Some (err_dyn inner))]))))
        text inner.


(** ** Vocabulary of the further properties *)


(** Booleans, integers and strings. *)
Definition scalar (d : dynval) : bool :=
  match d with
  | DBool _ | DInt _ | DString _ => true
  | _ => false
  end.


(** A non-nil protobuf message of type [*ty] at address [p]. *)
Definition message_at (ty : string) (p : addr) (fields : list (Z * Z))
    (sizeCache : Z) : value :=
  Some (DMessage ty (Some (p, MkMessage fields sizeCache))).

(** An assertion, seen as a function of the handle it is given, only
    appends to it: what it reports and what it returns do not depend on
    what the handle already holds. *)
Definition appends_only {A} (f : TB -> TB * outcome A) : Prop :=
  forall t : TB, f t = ((t ++ fst (f []))%list, snd (f [])).

(** ** The table-driven test [TestEquals] ([src/unnamed/part_001]) *)

Record test_case := {
  name : string;
  args_t : TB;
  args_expected : value;
  args_actual : value;
  args_opts : list Option;
  wantOk : bool
}.

(** [%v] of a [bool]. *)
Definition fmt_bool (b : bool) : string := if b then "true" else "false".

(** The body of the closure given to [t.Run], on the subtest's handle [t]:
    [Equals] reports to the handle of the table entry, the subtest reports a
    verdict that is not the wanted one. *)
Definition run_case (t : TB) (tt : test_case) : TB * outcome unit :=
  match Evolved.Equals (args_t tt) (args_expected tt) (args_actual tt)
          (args_opts tt) with
  | (_, Returns gotOk) =>
      if negb (Bool.eqb gotOk (wantOk tt))
      then (t_Errorf t ("Equals() = " ++ fmt_bool gotOk ++ ", want "
                        ++ fmt_bool (wantOk tt)), Returns Datatypes.tt)
      else (t, Returns Datatypes.tt)
  | (_, Halts) => (t, Halts)
  | (_, Panics) => (t, Panics)
  end.

(** The table, with the four structs allocated at [p1] to [p4]. *)
Definition tests (p1 p2 p3 p4 : addr) : list test_case :=
  [ {| name := "happy path"; args_t := [];
       args_expected := ref_SomeStruct p1 1 "foo";
       args_actual := ref_SomeStruct p2 1 "foo";
       args_opts := []; wantOk := true |};
    {| name := "sad path"; args_t := [];
       args_expected := ref_SomeStruct p3 1 "foo";
       args_actual := ref_SomeStruct p4 2 "bar";
       args_opts := []; wantOk := false |} ].

(** [TestEquals]: every entry runs as a subtest on a handle of its own. *)
Definition TestEquals (p1 p2 p3 p4 : addr)
  : list (string * (TB * outcome unit)) :=
  map (fun tt => (name tt, run_case [] tt)) (tests p1 p2 p3 p4).

(** * Properties *)

(** ** Equality on the test data *)

(** C1. In the evolved variant, [Equals] on two pointers to
    [SomeStruct{A:1,B:"foo"}] returns true and records nothing; against a
    pointer to [SomeStruct{A:2,B:"bar"}] as actual it returns false and
    records exactly one failure, whose message shows 2 and bar as the actual
    value and 1 and foo as the expected one.  The pointers' addresses play
    no part. *)
Theorem Equals_SomeStruct_scenario :
  forall (t : TB) (p q : addr),
    Evolved.Equals t (ref_SomeStruct p 1 "foo") (ref_SomeStruct q 1 "foo") []
      = (t, Returns true)
    /\ Evolved.Equals t (ref_SomeStruct p 1 "foo") (ref_SomeStruct q 2 "bar") []
      = (t_Errorf t "*assert.SomeStruct = &{2 bar}, want &{1 foo}",
         Returns false)
    /\ contains (fmt_v (ref_SomeStruct q 2 "bar")) "2" = true
    /\ contains (fmt_v (ref_SomeStruct q 2 "bar")) "bar" = true
    /\ contains (fmt_v (ref_SomeStruct p 1 "foo")) "1" = true
    /\ contains (fmt_v (ref_SomeStruct p 1 "foo")) "foo" = true.
Proof.
  intros t p q. repeat split; reflexivity.
Qed.

(** C8. The two variants of [Equals] disagree on two distinct pointers to
    structurally equal structs, which are of one type and not protobuf
    messages: operator equality compares the addresses, structural
    comparison the pointees. *)
Theorem Equals_variants_differ :
  exists expected actual : value,
    fmt_T expected = fmt_T actual
    /\ is_proto_message expected = false
    /\ snd (Legacy.Equals [] expected actual) = Returns false
    /\ snd (Evolved.Equals [] expected actual []) = Returns true.
Proof.
  exists (ref_SomeStruct 1%N 1 "foo"), (ref_SomeStruct 2%N 1 "foo").
  repeat split; reflexivity.
Qed.

(** ** Nil checks *)

(** C2. [NotNil] compares the untyped nil with [&value], the address of its
    own parameter, which is never nil: in both variants every call returns
    true and reports nothing, whatever the value, a nil interface or a nil
    typed pointer included.  The test is never halted. *)
Theorem NotNil_never_halts :
  forall (a : addr) (t : TB) (v : value),
    Evolved.NotNil a t v = (t, Returns true)
    /\ Legacy.NotNil a t v = (t, Returns true).
Proof.
  intros a t v. split; reflexivity.
Qed.

(** C10. [Nil] returns true on the nil interface and on nothing else: for
    every non-nil interface value it returns false and records one failure.
    An interface boxing a nil typed pointer is such a value. *)
Theorem Nil_only_nil_interface :
  forall (t : TB),
    (Evolved.Nil t nil = (t, Returns true)
     /\ Legacy.Nil t nil = (t, Returns true))
    /\ (forall d : dynval,
          Evolved.Nil t (Some d) = (t_Errorf t (got_want (Some d) nil), Returns false)
          /\ Legacy.Nil t (Some d) = (t_Errorf t (got_want (Some d) nil), Returns false))
    /\ (forall elem : string,
          Evolved.Nil t (Some (DPtr elem None))
            = (t_Errorf t ("*" ++ elem ++ " = <nil>, want <nil>"), Returns false)
          /\ Legacy.Nil t (Some (DPtr elem None))
            = (t_Errorf t ("*" ++ elem ++ " = <nil>, want <nil>"), Returns false)).
Proof.
  intros t. repeat split; reflexivity.
Qed.

(** C9. [NoError] returns true and records nothing on the nil error, and
    only there: for every non-nil error it returns false, records exactly
    one failure with [Errorf] and the test goes on. *)
Theorem NoError_iff_nil :
  forall (t : TB),
    (Evolved.NoError t None = (t, Returns true)
     /\ Legacy.NoError t None = (t, Returns true))
    /\ (forall e : errval,
          Evolved.NoError t (Some e)
            = (t_Errorf t (type_name (err_dyn e) ++ " = " ++ err_msg e
                           ++ ", want <nil>"), Returns false)
          /\ Legacy.NoError t (Some e)
            = (t_Errorf t (type_name (err_dyn e) ++ " = " ++ err_msg e
                           ++ ", want <nil>"), Returns false)).
Proof.
  intros t. repeat split; reflexivity.
Qed.

(** ** Equals and NotEquals *)

(** C5. On every pair of operands, and in the evolved variant under the
    same options, [NotEquals] returns the negation of what [Equals] returns
    (and panics exactly where [Equals] does).  In the older variant this
    covers the protobuf branch. *)
Theorem NotEquals_negates_Equals :
  forall (T : Type) (G : GoType T) (t : TB) (expected actual : T)
         (opts : list Option),
    snd (Evolved.NotEquals t expected actual opts)
      = outcome_map negb (snd (Evolved.Equals t expected actual opts))
    /\ snd (Legacy.NotEquals t expected actual)
      = outcome_map negb (snd (Legacy.Equals t expected actual)).
Proof.
  intros T G t expected actual opts. split.
  - unfold Evolved.NotEquals, Evolved.Equals, Evolved.EqualsFunc.
    destruct (cmp_Equal (to_any expected) (to_any actual) opts) as [[|]|];
      reflexivity.
  - unfold Legacy.NotEquals, Legacy.Equals, Legacy.EqualsFunc.
    destruct (as_Message (to_any expected)) as [msg|].
    + destruct (as_Message (to_any actual)) as [act|]; [|reflexivity].
      destruct (proto_Equal msg act); reflexivity.
    + destruct (go_eq (to_any expected) (to_any actual)) as [[|]|];
        reflexivity.
Qed.

(** ** Messages of the soft assertions *)

Lemma soft_report_cases (t : TB) (msg : string) (o : option bool) :
  soft_report t msg
    match o with
    | None => (t, Panics)
    | Some ok => if negb ok then (t_Errorf t msg, Returns ok)
                 else (t, Returns ok)
    end.
Proof.
  unfold soft_report. destruct o as [[|]|]; simpl; auto.
Qed.

(** C6, as the code has it.  A failing [Equals], [EqualsFunc] or [ErrorIs]
    of either variant, and a failing [NotEquals] of the older variant,
    records the message "<type of actual> = <actual>, want <expected>".  A
    failing [NotEquals] of the evolved variant records
    "<type of actual> != <actual>, want <expected>". *)
Theorem soft_message_shapes :
  forall (T : Type) (G : GoType T) (t : TB) (expected actual : T)
         (equals : T -> T -> option bool) (opts : list Option)
         (e1 e2 : error),
    soft_report t (got_want actual expected)
      (Evolved.EqualsFunc t expected actual equals)
    /\ soft_report t (got_want actual expected)
      (Evolved.Equals t expected actual opts)
    /\ soft_report t (got_want e2 e1) (Evolved.ErrorIs t e1 e2)
    /\ soft_report t (got_unwanted actual expected)
      (Evolved.NotEquals t expected actual opts)
    /\ soft_report t (got_want actual expected)
      (Legacy.EqualsFunc t expected actual equals)
    /\ soft_report t (got_want actual expected)
      (Legacy.Equals t expected actual)
    /\ soft_report t (got_want e2 e1) (Legacy.ErrorIs t e1 e2)
    /\ soft_report t (got_want actual expected)
      (Legacy.NotEquals t expected actual).
Proof.
  intros T G t expected actual equals opts e1 e2.
  repeat apply conj.
  - apply soft_report_cases.
  - apply soft_report_cases.
  - exact (soft_report_cases t (got_want e2 e1) (Some (errors_Is e2 e1))).
  - exact (soft_report_cases t (got_unwanted actual expected)
             (option_map negb (cmp_Equal (to_any expected) (to_any actual) opts))).
  - apply soft_report_cases.
  - apply soft_report_cases.
  - exact (soft_report_cases t (got_want e2 e1) (Some (errors_Is e2 e1))).
  - unfold Legacy.NotEquals; cbv zeta. apply soft_report_cases.
Qed.

(** C6 as stated fails: in the evolved variant a failing [NotEquals]
    records a message with [!=], not the "got = X, want Y" shape. *)
Lemma NotEquals_message_differs :
  Evolved.NotEquals [] (Some (DInt 1)) (Some (DInt 1)) []
    = ([Errorf "int != 1, want 1"], Returns false)
  /\ "int != 1, want 1" <> got_want (Some (DInt 1)) (Some (DInt 1)).
Proof.
  split; [reflexivity | vm_compute; discriminate].
Qed.

(** ** One reporting action per call *)




(** ** The type assertion *)

(** C4, at [Is[int](t, "foo")]: the test is halted with one [Fatalf], and
    the message names the pointer type [*int] (the type of [new(T)]), not
    the type [int] that was asserted. *)
Theorem Is_message_names_pointer_type :
  forall t : TB,
    Evolved.Is (Concrete "int") t (Some (DString "foo"))
      = (t_Fatalf t "foo is not of type *int", Halts)
    /\ Legacy.Is (Concrete "int") t (Some (DString "foo"))
      = (t_Fatalf t "foo is not of type *int", Halts)
    /\ "foo is not of type *int"
       <> fmt_v (Some (DString "foo")) ++ " is not of type "
          ++ target_name (Concrete "int").
Proof.
  intros t. repeat split. vm_compute. discriminate.
Qed.

(** [Is] hands back the value itself when its dynamic type is the asserted
    one, and reports nothing. *)
Lemma Is_returns_value (ty : string) (t : TB) (d : dynval) :
  type_name d = ty ->
  Evolved.Is (Concrete ty) t (Some d) = (t, Returns (Some d))
  /\ Legacy.Is (Concrete ty) t (Some d) = (t, Returns (Some d)).
Proof.
  intros <-. unfold Evolved.Is, Legacy.Is, type_assert.
  rewrite String.eqb_refl. split; reflexivity.
Qed.

(** [Is] halts on every value whose type assertion fails; the message ends
    in the name of the pointer type. *)
Lemma Is_halts_on_mismatch (T : target) (t : TB) (v : value) :
  type_assert T v = None ->
  Evolved.Is T t v
    = (t_Fatalf t (fmt_v v ++ " is not of type *" ++ target_name T), Halts)
  /\ Legacy.Is T t v
    = (t_Fatalf t (fmt_v v ++ " is not of type *" ++ target_name T), Halts).
Proof.
  intros H. unfold Evolved.Is, Legacy.Is. rewrite H. split; reflexivity.
Qed.

(** ** Error identity *)











(** ** The library models on concrete inputs *)

(** Two messages of one type with the same fields, at different addresses
    and with different bookkeeping, are equal for the older [Equals]. *)
Example Legacy_Equals_messages :
  let m1 := Some (DMessage "pb.Account" (Some (1%N, MkMessage [(1, 42)%Z] 0))) in
  let m2 := Some (DMessage "pb.Account" (Some (2%N, MkMessage [(1, 42)%Z] 7))) in
  Legacy.Equals [] m1 m2 = ([], Returns true)
  /\ snd (Legacy.NotEquals [] m1 m2) = Returns false
  /\ Evolved.Equals [] m1 m2 [] = ([], Panics)
  /\ Legacy.Equals [] m1 (Some (DInt 42)) = ([], Panics).
Proof.
  repeat split; reflexivity.
Qed.

(** Operator equality panics on two values of one uncomparable type. *)
Example Legacy_Equals_slices :
  let s := Some (DSlice "[]int" (Some [Some (DInt 1)])) in
  Legacy.Equals [] s s = ([], Panics)
  /\ Evolved.Equals [] s s [] = ([], Returns true).
Proof.
  split; reflexivity.
Qed.

(** Unexported fields make [cmp.Equal] panic unless an option covers
    them. *)
Example Evolved_Equals_options :
  let x := Some (DStruct "main.user" [("Name", Some (DString "ann"));
                                      ("age", Some (DInt 30))]) in
  let y := Some (DStruct "main.user" [("Name", Some (DString "ann"));
                                      ("age", Some (DInt 31))]) in
  Evolved.Equals [] x y [] = ([], Panics)
  /\ snd (Evolved.Equals [] x y [AllowUnexported "main.user"]) = Returns false
  /\ Evolved.Equals [] x y [Ignore "int"] = ([], Returns true)
  /\ Evolved.Equals [] x y [Comparer "main.user" (fun _ _ => true)]
     = ([], Returns true)
  /\ Evolved.Equals [] x y [Comparer "main.user" (fun _ _ => true);
                            Comparer "main.user" (fun _ _ => false)]
     = ([], Panics).
Proof.
  repeat split; reflexivity.
Qed.

(** [errors.Is] walks the chain built by [fmt.Errorf]. *)
Example ErrorIs_wrapped :
  let e := errors_New 1 "not found" in
  Evolved.ErrorIs [] (Some e) (Some (fmt_Errorf 3 "load" (fmt_Errorf 2 "open" e)))
    = ([], Returns true)
  /\ Evolved.ErrorIs [] (Some (fmt_Errorf 2 "open" e)) (Some e)
    = ([Errorf "*errors.errorString = not found, want open: not found"],
       Returns false)
  /\ Evolved.ErrorIs [] None None = ([], Returns true).
Proof.
  repeat split; reflexivity.
Qed.

(** * Further properties of the package *)

(** ** Comparing a value with itself *)





(** ** Errors *)

(** X2. The order of the operands of [ErrorIs] matters: an error made by
    [errors.New] is found in a [fmt.Errorf] wrapper around it, but the
    wrapper is not found in the error it wraps. *)
Theorem ErrorIs_is_directed :
  forall (t : TB) (p q : addr) (text prefix : string),
    let e := errors_New p text in
    let w := fmt_Errorf q prefix e in
    Evolved.ErrorIs t (Some e) (Some w) = (t, Returns true)
    /\ Evolved.ErrorIs t (Some w) (Some e)
       = (t_Errorf t ("*errors.errorString = " ++ text ++ ", want "
                      ++ prefix ++ ": " ++ text), Returns false).
Proof.
  intros t p q text prefix e w.
  unfold Evolved.ErrorIs, Evolved.EqualsFunc. split.
  - assert (H : errors_Is (Some w) (Some e) = true).
    { cbn. unfold err_eqb. cbn. rewrite N.eqb_refl. reflexivity. }
    rewrite H. reflexivity.
  - assert (H : errors_Is (Some e) (Some w) = false) by reflexivity.
    rewrite H. reflexivity.
Qed.

(** X3. [NoError(t, err)] is [ErrorIs(t, nil, err)]: in both variants the
    two calls return the same verdict and leave the same handle, message
    included. *)
Theorem NoError_is_ErrorIs_nil :
  forall (t : TB) (err : error),
    Evolved.NoError t err = Evolved.ErrorIs t None err
    /\ Legacy.NoError t err = Legacy.ErrorIs t None err.
Proof.
  intros t [e|]; split; reflexivity.
Qed.

(** X4. An error found by [ErrorIs] is still found after any further layer
    of wrapping. *)
Theorem ErrorIs_survives_wrapping :
  forall (t : TB) (expected : error) (actual : errval) (d : dynval)
         (m : string),
    Evolved.ErrorIs t expected (Some actual) = (t, Returns true) ->
    Evolved.ErrorIs t expected (Some (EWrap d m actual)) = (t, Returns true).
Proof.
  intros t expected actual d m H.
  assert (Hin : errors_Is (Some actual) expected = true).
  { unfold Evolved.ErrorIs, Evolved.EqualsFunc in H.
    destruct (errors_Is (Some actual) expected); [reflexivity|].
    simpl in H. inversion H. }
  assert (Hout : errors_Is (Some (EWrap d m actual)) expected = true).
  { destruct expected as [x|]; [|discriminate Hin].
    simpl in Hin |- *. rewrite Hin.
    destruct (comparable (err_dyn x) && err_eqb (EWrap d m actual) x);
      reflexivity. }
  unfold Evolved.ErrorIs, Evolved.EqualsFunc. rewrite Hout. reflexivity.
Qed.

Lemma ErrorIs_survives_wrapping_witness :
  Evolved.ErrorIs [] (Some (errors_New 1 "eof"))
    (Some (fmt_Errorf 2 "read" (errors_New 1 "eof")))
  = ([], Returns true)
  /\ Evolved.ErrorIs [] (Some (errors_New 1 "eof"))
       (Some (EWrap (DString "ctx") "ctx: read: eof"
                (fmt_Errorf 2 "read" (errors_New 1 "eof"))))
     = ([], Returns true).
Proof.
  split; [reflexivity|].
  apply (ErrorIs_survives_wrapping [] (Some (errors_New 1 "eof"))
           (fmt_Errorf 2 "read" (errors_New 1 "eof"))
           (DString "ctx") "ctx: read: eof").
  reflexivity.
Defined.

(** ** The type assertion *)

(** X5. [Is] has two ways to end: it returns the very value it was given,
    which is then not the nil interface, with the handle untouched; or it
    halts the test with one [Fatalf].  On the nil interface it halts
    whatever the asserted type, [any] included. *)
Theorem Is_returns_its_argument_or_halts :
  forall (T : target) (t : TB) (v : value),
    (Evolved.Is T t v = Legacy.Is T t v)
    /\ ((Evolved.Is T t v = (t, Returns v) /\ v <> nil)
        \/ Evolved.Is T t v
           = (t_Fatalf t (fmt_v v ++ " is not of type *" ++ target_name T),
              Halts))
    /\ Evolved.Is T t nil
       = (t_Fatalf t ("<nil> is not of type *" ++ target_name T), Halts).
Proof.
  intros T t v. split; [reflexivity|]. split; [|reflexivity].
  unfold Evolved.Is, type_assert.
  destruct v as [d|]; [|right; reflexivity].
  destruct T as [ty | nm implements].
  - destruct (String.eqb (type_name d) ty);
      [left; split; [reflexivity | discriminate] | right; reflexivity].
  - destruct (implements d);
      [left; split; [reflexivity | discriminate] | right; reflexivity].
Qed.

(** ** Protobuf messages *)

Lemma fields_eqb_eq (f1 f2 : list (Z * Z)) :
  fields_eqb f1 f2 = true <-> f1 = f2.
Proof.
  revert f2. induction f1 as [| [k1 v1] r1 IH]; intros [| [k2 v2] r2]; simpl;
    try (split; [reflexivity | reflexivity]);
    try (split; discriminate).
  rewrite !andb_true_iff, Z.eqb_eq, Z.eqb_eq, IH. split.
  - intros [[-> ->] ->]. reflexivity.
  - intros H. inversion H. auto.
Qed.

(** X6. In the older variant two non-nil messages of one type are equal
    exactly when they are the same pointer or carry the same populated
    fields; the bookkeeping ([sizeCache]) never matters. *)
Theorem Legacy_Equals_messages_semantic :
  forall (t : TB) (ty : string) (p q : addr) (f1 f2 : list (Z * Z))
         (c1 c2 : Z),
    (Legacy.Equals t (message_at ty p f1 c1) (message_at ty q f2 c2)
       = (t, Returns true)
     <-> p = q \/ f1 = f2)
    /\ snd (Legacy.Equals t (message_at ty p f1 c1) (message_at ty q f2 c2))
       = Returns (N.eqb p q || fields_eqb f1 f2).
Proof.
  intros t ty p q f1 f2 c1 c2.
  assert (E : proto_Equal (ty, Some (p, MkMessage f1 c1))
                          (ty, Some (q, MkMessage f2 c2))
              = N.eqb p q || fields_eqb f1 f2).
  { unfold proto_Equal. rewrite String.eqb_refl. simpl.
    destruct (N.eqb p q); reflexivity. }
  unfold Legacy.Equals, Legacy.EqualsFunc. cbn - [proto_Equal got_want].
  rewrite E. split; [|destruct (N.eqb p q || fields_eqb f1 f2); reflexivity].
  rewrite <- N.eqb_eq, <- fields_eqb_eq, <- orb_true_iff.
  destruct (N.eqb p q || fields_eqb f1 f2); simpl; split;
    try reflexivity; try discriminate.
Qed.

(** X7. In the older variant a message as [expected] against an [actual]
    that is no message (the nil interface, an integer) makes [Equals] and
    [NotEquals] panic before anything is reported, whereas nil as
    [expected] against a message is an ordinary soft failure. *)
Theorem Legacy_Equals_message_against_other :
  forall (t : TB) (ty : string) (tg : option (addr * message)) (v : value),
    is_proto_message v = false ->
    Legacy.Equals t (Some (DMessage ty tg)) v = (t, Panics)
    /\ Legacy.NotEquals t (Some (DMessage ty tg)) v = (t, Panics)
    /\ Legacy.Equals t nil (Some (DMessage ty tg))
       = (t_Errorf t (got_want (Some (DMessage ty tg)) nil), Returns false).
Proof.
  intros t ty tg v Hv.
  assert (Hm : as_Message v = None).
  { destruct v as [[]|]; try reflexivity. discriminate Hv. }
  unfold Legacy.Equals, Legacy.NotEquals, Legacy.EqualsFunc.
  cbn - [got_want]. rewrite Hm. repeat split.
Qed.

Lemma Legacy_Equals_message_against_other_witness :
  is_proto_message nil = false
  /\ Legacy.Equals [] (message_at "pb.Account" 1 [(1, 42)%Z] 0) nil
     = ([], Panics).
Proof.
  split; [reflexivity|].
  apply (Legacy_Equals_message_against_other [] "pb.Account"
           (Some (1%N, MkMessage [(1, 42)%Z] 0%Z)) nil).
  reflexivity.
Defined.

(** X8. In the evolved variant, without options, [Equals] and [NotEquals]
    panic on any two non-nil messages of one type, the same pointer
    included: nothing is returned and nothing is reported. *)
Theorem Evolved_Equals_messages_panic :
  forall (t : TB) (ty : string) (p q : addr) (f1 f2 : list (Z * Z))
         (c1 c2 : Z),
    Evolved.Equals t (message_at ty p f1 c1) (message_at ty q f2 c2) []
      = (t, Panics)
    /\ Evolved.NotEquals t (message_at ty p f1 c1) (message_at ty q f2 c2) []
      = (t, Panics).
Proof.
  intros t ty p q f1 f2 c1 c2.
  unfold Evolved.Equals, Evolved.NotEquals, Evolved.EqualsFunc.
  cbn - [got_want String.eqb]. unfold same_type. cbn - [String.eqb].
  rewrite String.eqb_refl. split; reflexivity.
Qed.

(** ** Operands of different types, pointers, scalars *)




(** X11. On booleans, integers and strings the two variants of [Equals]
    and of [NotEquals] return the same verdict, and the two [Equals] leave
    the same handle. *)
Theorem variants_agree_on_scalars :
  forall (t : TB) (a b : dynval),
    scalar a = true -> scalar b = true ->
    Legacy.Equals t (Some a) (Some b) = Evolved.Equals t (Some a) (Some b) []
    /\ snd (Legacy.NotEquals t (Some a) (Some b))
       = snd (Evolved.NotEquals t (Some a) (Some b) []).
Proof.
  intros t a b Ha Hb.
  destruct a; try discriminate Ha; destruct b; try discriminate Hb;
    unfold Legacy.Equals, Legacy.NotEquals, Legacy.EqualsFunc,
      Evolved.Equals, Evolved.NotEquals, Evolved.EqualsFunc;
    cbn - [got_want got_unwanted Z.eqb String.eqb Bool.eqb];
    try (split; reflexivity);
    match goal with
    | |- context [Bool.eqb ?u ?v] => destruct (Bool.eqb u v)
    | |- context [Z.eqb ?u ?v] => destruct (Z.eqb u v)
    | |- context [String.eqb ?u ?v] => destruct (String.eqb u v)
    end; split; reflexivity.
Qed.

Lemma variants_agree_on_scalars_witness :
  scalar (DInt 1) = true /\ scalar (DInt 2) = true
  /\ Legacy.Equals [] (Some (DInt 1)) (Some (DInt 2))
     = Evolved.Equals [] (Some (DInt 1)) (Some (DInt 2)) [].
Proof.
  split; [reflexivity|]. split; [reflexivity|].
  apply (variants_agree_on_scalars [] (DInt 1) (DInt 2)); reflexivity.
Defined.

(** ** Structural equality of a value with itself *)




(** ** The handle is only appended to *)

Ltac appends_by_cases :=
  unfold t_Errorf, t_Fatalf; simpl; rewrite ?app_nil_r; reflexivity.

(** X13. No assertion of either variant reads, drops or rewrites what the
    handle already holds: on a handle [t] it leaves [t] followed by what it
    reports on an empty handle, and returns what it returns there. *)
Theorem assertions_append_only :
  forall (T : Type) (G : GoType T) (expected actual : T)
         (equals : T -> T -> option bool) (opts : list Option)
         (e1 e2 : error) (v : value) (a : addr) (Tg : target),
    (appends_only (fun t => Evolved.EqualsFunc t expected actual equals)
     /\ appends_only (fun t => Evolved.Equals t expected actual opts)
     /\ appends_only (fun t => Evolved.NotEquals t expected actual opts)
     /\ appends_only (fun t => Evolved.ErrorIs t e1 e2)
     /\ appends_only (fun t => Evolved.NoError t e1)
     /\ appends_only (fun t => Evolved.Nil t v)
     /\ appends_only (fun t => Evolved.NotNil a t v)
     /\ appends_only (fun t => Evolved.Is Tg t v))
    /\ (appends_only (fun t => Legacy.EqualsFunc t expected actual equals)
     /\ appends_only (fun t => Legacy.Equals t expected actual)
     /\ appends_only (fun t => Legacy.NotEquals t expected actual)
     /\ appends_only (fun t => Legacy.ErrorIs t e1 e2)
     /\ appends_only (fun t => Legacy.NoError t e1)
     /\ appends_only (fun t => Legacy.Nil t v)
     /\ appends_only (fun t => Legacy.NotNil a t v)
     /\ appends_only (fun t => Legacy.Is Tg t v)).
Proof.
  intros T G expected actual equals opts e1 e2 v a Tg.
  split; repeat apply conj; intros t.
  - unfold Evolved.EqualsFunc.
    destruct (equals expected actual) as [[|]|]; appends_by_cases.
  - unfold Evolved.Equals, Evolved.EqualsFunc.
    destruct (cmp_Equal _ _ opts) as [[|]|]; appends_by_cases.
  - unfold Evolved.NotEquals.
    destruct (cmp_Equal _ _ opts) as [[|]|]; appends_by_cases.
  - unfold Evolved.ErrorIs, Evolved.EqualsFunc.
    destruct (errors_Is e2 e1); appends_by_cases.
  - destruct e1; appends_by_cases.
  - destruct v; appends_by_cases.
  - appends_by_cases.
  - unfold Evolved.Is. destruct (type_assert Tg v); appends_by_cases.
  - unfold Legacy.EqualsFunc.
    destruct (equals expected actual) as [[|]|]; appends_by_cases.
  - unfold Legacy.Equals, Legacy.EqualsFunc.
    destruct (as_Message (to_any expected));
      [destruct (as_Message (to_any actual));
         [destruct (proto_Equal _ _)|]
      | destruct (go_eq _ _) as [[|]|]]; appends_by_cases.
  - unfold Legacy.NotEquals.
    destruct (as_Message (to_any expected));
      [destruct (as_Message (to_any actual));
         [destruct (proto_Equal _ _)|]
      | destruct (go_eq _ _) as [[|]|]]; appends_by_cases.
  - unfold Legacy.ErrorIs, Legacy.EqualsFunc.
    destruct (errors_Is e2 e1); appends_by_cases.
  - destruct e1; appends_by_cases.
  - destruct v; appends_by_cases.
  - appends_by_cases.
  - unfold Legacy.Is. destruct (type_assert Tg v); appends_by_cases.
Qed.

(** ** The package's own test *)

(** X14. A subtest of [TestEquals] stays silent exactly when [Equals]
    returns the wanted verdict, whatever [Equals] reported to the handle of
    the table entry; and both entries of the table pass, wherever the four
    structs are allocated. *)
Theorem TestEquals_passes :
  forall (t : TB) (tt : test_case) (p1 p2 p3 p4 : addr),
    (run_case t tt = (t, Returns Datatypes.tt)
     <-> snd (Evolved.Equals (args_t tt) (args_expected tt) (args_actual tt)
                (args_opts tt)) = Returns (wantOk tt))
    /\ TestEquals p1 p2 p3 p4
       = [("happy path", ([], Returns Datatypes.tt));
          ("sad path", ([], Returns Datatypes.tt))].
Proof.
  intros t tt p1 p2 p3 p4. split; [|reflexivity].
  unfold run_case.
  destruct (Evolved.Equals (args_t tt) (args_expected tt) (args_actual tt)
              (args_opts tt)) as [t' [gotOk| |]]; simpl;
    try (split; discriminate).
  destruct gotOk, (wantOk tt); simpl; split; intros H;
    try reflexivity; try discriminate H.
  - exfalso. inversion H as [H0].
    rewrite <- (app_nil_r t) in H0 at 2. unfold t_Errorf in H0.
    apply app_inv_head in H0. discriminate H0.
  - exfalso. inversion H as [H0].
    rewrite <- (app_nil_r t) in H0 at 2. unfold t_Errorf in H0.
    apply app_inv_head in H0. discriminate H0.
Qed.
